(** * RecketClient: a shallow embedding of [src/index.ts]

    The client is a single mutable object driven by one event loop.  It is
    embedded as a record [client] holding the fields of the class together
    with the part of the JavaScript runtime the class talks to: the state
    of the socket it owns, the table of armed timers, and the trace of
    everything the client does to the outside world (frames handed to the
    socket, handlers invoked, promises settled, timers set).

    Every method and every socket or timer callback of the class is a
    function on [client].  A method that can raise returns an [outcome];
    the state reached before the exception is kept, as in JavaScript.

    Conventions.
    - User handlers registered with [on] are opaque: invoking one is
      recorded in the trace with the arguments it is given.
    - Numbers are integers ([Z]); the URL assembly of [initializeSocket]
      and the console output are not modelled.
    - A JavaScript [Map] is a [gmap]; [Map.forEach] visits the entries in
      the order of [map_to_list]. *)

From stdpp Require Import gmap strings list fin_maps pretty.
From Stdlib Require Import ZArith.

#[local] Set Warnings "-register-all".

(** ** JavaScript values *)

Inductive jsval :=
| JUndefined
| JNull
| JBool (b : bool)
| JNum (n : Z)
| JStr (s : string)
| JBigInt (n : Z)
| JArr (xs : list jsval)
| JObj (fields : list (string * jsval)).

(** ToBoolean. *)
Definition truthy (v : jsval) : bool :=
  match v with
  | JUndefined | JNull => false
  | JBool b => b
  | JNum n | JBigInt n => negb (n =? 0)%Z
  | JStr s => negb (String.eqb s "")
  | JArr _ | JObj _ => true
  end.

(** [a || b] *)
Definition js_or (a b : jsval) : jsval := if truthy a then a else b.

(** Property read [v?.k]: own property of an object, [undefined] on
    [null], [undefined] and on values that have no such property. *)
Fixpoint assoc (k : string) (fs : list (string * jsval)) : jsval :=
  match fs with
  | [] => JUndefined
  | (k', v) :: fs' => if String.eqb k k' then v else assoc k fs'
  end.

Definition getField (v : jsval) (k : string) : jsval :=
  match v with
  | JObj fs => assoc k fs
  | _ => JUndefined
  end.

(** [JSON.stringify] raises a TypeError on a BigInt, wherever it occurs in
    the value; every other value of [jsval] is serialised. *)
Fixpoint serializable (v : jsval) : bool :=
  match v with
  | JBigInt _ => false
  | JArr xs => forallb serializable xs
  | JObj fs => forallb (fun kv => serializable (snd kv)) fs
  | _ => true
  end.

(** ToString, as used by a template literal. *)
Fixpoint toString (v : jsval) : string :=
  match v with
  | JUndefined => "undefined"
  | JNull => "null"
  | JBool true => "true"
  | JBool false => "false"
  | JNum n | JBigInt n => pretty n
  | JStr s => s
  | JArr xs =>
      (fix join (l : list jsval) : string :=
         match l with
         | [] => ""
         | x :: r =>
             let item := match x with
                         | JUndefined | JNull => ""
                         | _ => toString x
                         end in
             match r with
             | [] => item
             | _ :: _ => item +:+ "," +:+ join r
             end
         end) xs
  | JObj _ => "[object Object]"
  end.

(** Object literals of the source. *)
Definition obj2 (k1 : string) (v1 : jsval) (k2 : string) (v2 : jsval) : jsval :=
  JObj [(k1, v1); (k2, v2)].

Definition event_frame (event : string) (data : jsval) : jsval :=
  obj2 "event" (JStr event) "data" data.

Definition request_frame (id : string) (endpoint : string) (data : jsval) : jsval :=
  JObj [("request",
         JObj [("id", JStr id); ("endpoint", JStr endpoint); ("data", data)])].

Definition response_frame (id data error : jsval) : jsval :=
  JObj [("response", JObj [("id", id); ("data", data); ("error", error)])].

(** ** The client object and the runtime around it *)

Inductive ready_state := CONNECTING | OPEN | CLOSING | CLOSED.

#[global] Instance ready_state_eq_dec : EqDecision ready_state.
Proof. solve_decision. Defined.

(** What a timer does when it fires. *)
Inductive timer_cb :=
| RequestTimeout (requestId : string) (p : nat)
| Reconnect.

Record timer := { delay : Z; callback : timer_cb }.

(** An entry of [pendingRequests]: the promise whose [resolve] and [reject]
    it holds, and the handle of its deadline timer. *)
Record pending := { promise : nat; timeout : nat }.

(** The synchronous behaviour of a handler registered with [onRequest]:
    the calls it makes to [respond], then whether it throws. *)
Record handler_run := { responds : list (jsval * jsval); throws : option jsval }.

Definition request_handler := jsval -> handler_run.

Inductive effect :=
| Send (frame : jsval)
| Invoke (h : nat) (args : list jsval)
| Resolve (p : nat) (v : jsval)
| Reject (p : nat) (code message : jsval)
| SetTimeout (t : nat) (ms : Z) (cb : timer_cb).

Record client := {
  readyState : ready_state;
  closingSockets : nat;
  secureUrl : bool;
  events : gmap string nat;
  requestHandlers : gmap string request_handler;
  pendingRequests : gmap string pending;
  allowServerRequests : bool;
  reconnectionAttempts : Z;
  reconnectionDelay : Z;
  shouldReconnect : bool;
  currentAttempt : Z;
  isManuallyDisconnected : bool;
  eventQueue : list (string * jsval);
  timers : gmap nat timer;
  nextTimer : nat;
  nextPromise : nat;
  effects : list effect
}.

Definition set_readyState (x : ready_state) (c : client) : client :=
  {| readyState := x; closingSockets := closingSockets c;
     secureUrl := secureUrl c; events := events c;
     requestHandlers := requestHandlers c;
     pendingRequests := pendingRequests c;
     allowServerRequests := allowServerRequests c;
     reconnectionAttempts := reconnectionAttempts c;
     reconnectionDelay := reconnectionDelay c;
     shouldReconnect := shouldReconnect c;
     currentAttempt := currentAttempt c;
     isManuallyDisconnected := isManuallyDisconnected c;
     eventQueue := eventQueue c; timers := timers c;
     nextTimer := nextTimer c; nextPromise := nextPromise c;
     effects := effects c |}.

Definition set_closingSockets (x : nat) (c : client) : client :=
  {| readyState := readyState c; closingSockets := x;
     secureUrl := secureUrl c; events := events c;
     requestHandlers := requestHandlers c;
     pendingRequests := pendingRequests c;
     allowServerRequests := allowServerRequests c;
     reconnectionAttempts := reconnectionAttempts c;
     reconnectionDelay := reconnectionDelay c;
     shouldReconnect := shouldReconnect c;
     currentAttempt := currentAttempt c;
     isManuallyDisconnected := isManuallyDisconnected c;
     eventQueue := eventQueue c; timers := timers c;
     nextTimer := nextTimer c; nextPromise := nextPromise c;
     effects := effects c |}.

Definition set_events (x : gmap string nat) (c : client) : client :=
  {| readyState := readyState c; closingSockets := closingSockets c;
     secureUrl := secureUrl c; events := x;
     requestHandlers := requestHandlers c;
     pendingRequests := pendingRequests c;
     allowServerRequests := allowServerRequests c;
     reconnectionAttempts := reconnectionAttempts c;
     reconnectionDelay := reconnectionDelay c;
     shouldReconnect := shouldReconnect c;
     currentAttempt := currentAttempt c;
     isManuallyDisconnected := isManuallyDisconnected c;
     eventQueue := eventQueue c; timers := timers c;
     nextTimer := nextTimer c; nextPromise := nextPromise c;
     effects := effects c |}.

Definition set_requestHandlers (x : gmap string request_handler) (c : client) : client :=
  {| readyState := readyState c; closingSockets := closingSockets c;
     secureUrl := secureUrl c; events := events c; requestHandlers := x;
     pendingRequests := pendingRequests c;
     allowServerRequests := allowServerRequests c;
     reconnectionAttempts := reconnectionAttempts c;
     reconnectionDelay := reconnectionDelay c;
     shouldReconnect := shouldReconnect c;
     currentAttempt := currentAttempt c;
     isManuallyDisconnected := isManuallyDisconnected c;
     eventQueue := eventQueue c; timers := timers c;
     nextTimer := nextTimer c; nextPromise := nextPromise c;
     effects := effects c |}.

Definition set_pendingRequests (x : gmap string pending) (c : client) : client :=
  {| readyState := readyState c; closingSockets := closingSockets c;
     secureUrl := secureUrl c; events := events c;
     requestHandlers := requestHandlers c; pendingRequests := x;
     allowServerRequests := allowServerRequests c;
     reconnectionAttempts := reconnectionAttempts c;
     reconnectionDelay := reconnectionDelay c;
     shouldReconnect := shouldReconnect c;
     currentAttempt := currentAttempt c;
     isManuallyDisconnected := isManuallyDisconnected c;
     eventQueue := eventQueue c; timers := timers c;
     nextTimer := nextTimer c; nextPromise := nextPromise c;
     effects := effects c |}.

Definition set_allowServerRequests (x : bool) (c : client) : client :=
  {| readyState := readyState c; closingSockets := closingSockets c;
     secureUrl := secureUrl c; events := events c;
     requestHandlers := requestHandlers c;
     pendingRequests := pendingRequests c; allowServerRequests := x;
     reconnectionAttempts := reconnectionAttempts c;
     reconnectionDelay := reconnectionDelay c;
     shouldReconnect := shouldReconnect c;
     currentAttempt := currentAttempt c;
     isManuallyDisconnected := isManuallyDisconnected c;
     eventQueue := eventQueue c; timers := timers c;
     nextTimer := nextTimer c; nextPromise := nextPromise c;
     effects := effects c |}.

Definition set_reconnectionDelay (x : Z) (c : client) : client :=
  {| readyState := readyState c; closingSockets := closingSockets c;
     secureUrl := secureUrl c; events := events c;
     requestHandlers := requestHandlers c;
     pendingRequests := pendingRequests c;
     allowServerRequests := allowServerRequests c;
     reconnectionAttempts := reconnectionAttempts c; reconnectionDelay := x;
     shouldReconnect := shouldReconnect c;
     currentAttempt := currentAttempt c;
     isManuallyDisconnected := isManuallyDisconnected c;
     eventQueue := eventQueue c; timers := timers c;
     nextTimer := nextTimer c; nextPromise := nextPromise c;
     effects := effects c |}.

Definition set_shouldReconnect (x : bool) (c : client) : client :=
  {| readyState := readyState c; closingSockets := closingSockets c;
     secureUrl := secureUrl c; events := events c;
     requestHandlers := requestHandlers c;
     pendingRequests := pendingRequests c;
     allowServerRequests := allowServerRequests c;
     reconnectionAttempts := reconnectionAttempts c;
     reconnectionDelay := reconnectionDelay c; shouldReconnect := x;
     currentAttempt := currentAttempt c;
     isManuallyDisconnected := isManuallyDisconnected c;
     eventQueue := eventQueue c; timers := timers c;
     nextTimer := nextTimer c; nextPromise := nextPromise c;
     effects := effects c |}.

Definition set_currentAttempt (x : Z) (c : client) : client :=
  {| readyState := readyState c; closingSockets := closingSockets c;
     secureUrl := secureUrl c; events := events c;
     requestHandlers := requestHandlers c;
     pendingRequests := pendingRequests c;
     allowServerRequests := allowServerRequests c;
     reconnectionAttempts := reconnectionAttempts c;
     reconnectionDelay := reconnectionDelay c;
     shouldReconnect := shouldReconnect c; currentAttempt := x;
     isManuallyDisconnected := isManuallyDisconnected c;
     eventQueue := eventQueue c; timers := timers c;
     nextTimer := nextTimer c; nextPromise := nextPromise c;
     effects := effects c |}.

Definition set_isManuallyDisconnected (x : bool) (c : client) : client :=
  {| readyState := readyState c; closingSockets := closingSockets c;
     secureUrl := secureUrl c; events := events c;
     requestHandlers := requestHandlers c;
     pendingRequests := pendingRequests c;
     allowServerRequests := allowServerRequests c;
     reconnectionAttempts := reconnectionAttempts c;
     reconnectionDelay := reconnectionDelay c;
     shouldReconnect := shouldReconnect c;
     currentAttempt := currentAttempt c; isManuallyDisconnected := x;
     eventQueue := eventQueue c; timers := timers c;
     nextTimer := nextTimer c; nextPromise := nextPromise c;
     effects := effects c |}.

Definition set_eventQueue (x : list (string * jsval)) (c : client) : client :=
  {| readyState := readyState c; closingSockets := closingSockets c;
     secureUrl := secureUrl c; events := events c;
     requestHandlers := requestHandlers c;
     pendingRequests := pendingRequests c;
     allowServerRequests := allowServerRequests c;
     reconnectionAttempts := reconnectionAttempts c;
     reconnectionDelay := reconnectionDelay c;
     shouldReconnect := shouldReconnect c;
     currentAttempt := currentAttempt c;
     isManuallyDisconnected := isManuallyDisconnected c; eventQueue := x;
     timers := timers c; nextTimer := nextTimer c;
     nextPromise := nextPromise c; effects := effects c |}.

Definition set_timers (x : gmap nat timer) (c : client) : client :=
  {| readyState := readyState c; closingSockets := closingSockets c;
     secureUrl := secureUrl c; events := events c;
     requestHandlers := requestHandlers c;
     pendingRequests := pendingRequests c;
     allowServerRequests := allowServerRequests c;
     reconnectionAttempts := reconnectionAttempts c;
     reconnectionDelay := reconnectionDelay c;
     shouldReconnect := shouldReconnect c;
     currentAttempt := currentAttempt c;
     isManuallyDisconnected := isManuallyDisconnected c;
     eventQueue := eventQueue c; timers := x; nextTimer := nextTimer c;
     nextPromise := nextPromise c; effects := effects c |}.

Definition set_nextTimer (x : nat) (c : client) : client :=
  {| readyState := readyState c; closingSockets := closingSockets c;
     secureUrl := secureUrl c; events := events c;
     requestHandlers := requestHandlers c;
     pendingRequests := pendingRequests c;
     allowServerRequests := allowServerRequests c;
     reconnectionAttempts := reconnectionAttempts c;
     reconnectionDelay := reconnectionDelay c;
     shouldReconnect := shouldReconnect c;
     currentAttempt := currentAttempt c;
     isManuallyDisconnected := isManuallyDisconnected c;
     eventQueue := eventQueue c; timers := timers c; nextTimer := x;
     nextPromise := nextPromise c; effects := effects c |}.

Definition set_nextPromise (x : nat) (c : client) : client :=
  {| readyState := readyState c; closingSockets := closingSockets c;
     secureUrl := secureUrl c; events := events c;
     requestHandlers := requestHandlers c;
     pendingRequests := pendingRequests c;
     allowServerRequests := allowServerRequests c;
     reconnectionAttempts := reconnectionAttempts c;
     reconnectionDelay := reconnectionDelay c;
     shouldReconnect := shouldReconnect c;
     currentAttempt := currentAttempt c;
     isManuallyDisconnected := isManuallyDisconnected c;
     eventQueue := eventQueue c; timers := timers c;
     nextTimer := nextTimer c; nextPromise := x; effects := effects c |}.

Definition set_effects (x : list effect) (c : client) : client :=
  {| readyState := readyState c; closingSockets := closingSockets c;
     secureUrl := secureUrl c; events := events c;
     requestHandlers := requestHandlers c;
     pendingRequests := pendingRequests c;
     allowServerRequests := allowServerRequests c;
     reconnectionAttempts := reconnectionAttempts c;
     reconnectionDelay := reconnectionDelay c;
     shouldReconnect := shouldReconnect c;
     currentAttempt := currentAttempt c;
     isManuallyDisconnected := isManuallyDisconnected c;
     eventQueue := eventQueue c; timers := timers c;
     nextTimer := nextTimer c; nextPromise := nextPromise c; effects := x |}.

(** ** Runtime primitives *)

(** The result of a call that may raise. *)
Inductive outcome :=
| Ok (c : client)
| Throw (c : client) (err : jsval).

Definition state_of (o : outcome) : client :=
  match o with
  | Ok c | Throw c _ => c
  end.

Definition log (e : effect) (c : client) : client :=
  set_effects (effects c ++ [e]) c.

Definition js_error (name message : string) : jsval :=
  obj2 "name" (JStr name) "message" (JStr message).

(** [this.socket.send(JSON.stringify(frame))].  The serialisation comes
    first and may raise.  A socket that is still connecting refuses to
    send; one that is closing or closed discards the frame. *)
Definition socket_send (frame : jsval) (c : client) : outcome :=
  if serializable frame then
    match readyState c with
    | OPEN => Ok (log (Send frame) c)
    | CONNECTING => Throw c (js_error "InvalidStateError" "Still in CONNECTING state")
    | CLOSING | CLOSED => Ok c
    end
  else Throw c (js_error "TypeError" "Do not know how to serialize a BigInt").

(** [this.socket.close()]: starts the closing handshake of a live socket;
    the close event comes later. *)
Definition socket_close (c : client) : client :=
  match readyState c with
  | CONNECTING | OPEN => set_readyState CLOSING c
  | CLOSING | CLOSED => c
  end.

Definition setTimeout (cb : timer_cb) (ms : Z) (c : client) : client :=
  let t := nextTimer c in
  log (SetTimeout t ms cb)
    (set_nextTimer (S t)
       (set_timers (<[t := {| delay := ms; callback := cb |}]> (timers c)) c)).

Definition clearTimeout (t : nat) (c : client) : client :=
  set_timers (delete t (timers c)) c.

Definition resolve (p : nat) (v : jsval) (c : client) : client :=
  log (Resolve p v) c.

Definition reject (p : nat) (code : Z) (message : string) (c : client) : client :=
  log (Reject p (JNum code) (JStr message)) c.

(** [Map.get(k)] on a map with string keys, for a key of any type. *)
Definition lookup_key {V} (k : jsval) (m : gmap string V) : option V :=
  match k with
  | JStr s => m !! s
  | _ => None
  end.

(** [this.events.get(event)?.(args)] *)
Definition fire (event : jsval) (args : list jsval) (c : client) : client :=
  match lookup_key event (events c) with
  | Some h => log (Invoke h args) c
  | None => c
  end.

(** ** The class *)

Record options := {
  opt_reconnectionAttempts : option Z;
  opt_reconnectionDelay : option Z;
  opt_shouldReconnect : option bool
}.

Definition no_options : options :=
  {| opt_reconnectionAttempts := None; opt_reconnectionDelay := None;
     opt_shouldReconnect := None |}.

(** [initializeSocket] replaces [this.socket] by a fresh, connecting
    socket.  It is reached from the constructor and from [reconnectResume]
    only, so the socket it replaces is closing or closed; a closing one
    keeps its callbacks and still delivers its close event. *)
Definition initializeSocket (c : client) : client :=
  set_readyState CONNECTING
    (match readyState c with
     | CLOSING => set_closingSockets (S (closingSockets c)) c
     | _ => c
     end).

Definition constructor (secure : bool) (o : options) : client :=
  {| readyState := CONNECTING; closingSockets := 0; secureUrl := secure;
     events := ∅; requestHandlers := ∅; pendingRequests := ∅;
     allowServerRequests := false;
     reconnectionAttempts := default 5%Z (opt_reconnectionAttempts o);
     reconnectionDelay := default 1000%Z (opt_reconnectionDelay o);
     shouldReconnect := default true (opt_shouldReconnect o);
     currentAttempt := 0; isManuallyDisconnected := false;
     eventQueue := []; timers := ∅; nextTimer := 0; nextPromise := 0;
     effects := [] |}.

Definition enableServerRequests (c : client) : client :=
  if secureUrl c then set_allowServerRequests true c else c.

Definition disableServerRequests (c : client) : client :=
  set_allowServerRequests false c.

Definition on (event : string) (handler : nat) (c : client) : client :=
  set_events (<[event := handler]> (events c)) c.

Definition emit (event : string) (data : jsval) (c : client) : outcome :=
  if decide (readyState c ≠ OPEN) then
    if negb (isManuallyDisconnected c) then
      Ok (set_eventQueue (eventQueue c ++ [(event, data)]) c)
    else Ok c
  else socket_send (event_frame event data) c.

Definition close (c : client) : client := socket_close c.

Definition quoted (s : string) : string :=
  let q := String (Ascii.ascii_of_nat 34) "" in q +:+ s +:+ q.

Definition onRequest (endpoint : string) (handler : request_handler)
    (c : client) : outcome :=
  match requestHandlers c !! endpoint with
  | Some _ =>
      Throw c (js_error "Error"
                 ("Endpoint " +:+ quoted endpoint +:+ " is already registered."))
  | None => Ok (set_requestHandlers (<[endpoint := handler]> (requestHandlers c)) c)
  end.

Definition sendResponse (id data error : jsval) (c : client) : outcome :=
  socket_send (response_frame id data error) c.

(** The calls a request handler makes to its [respond] argument, in order;
    a call that raises ends the handler. *)
Fixpoint respond_each (id : jsval) (rs : list (jsval * jsval)) (c : client) : outcome :=
  match rs with
  | [] => Ok c
  | (data, error) :: rs' =>
      match sendResponse id data error c with
      | Ok c' => respond_each id rs' c'
      | Throw c' e => Throw c' e
      end
  end.

Definition handleIncomingRequest (id endpoint data : jsval) (c : client) : outcome :=
  match lookup_key endpoint (requestHandlers c) with
  | None =>
      sendResponse id JNull
        (obj2 "code" (JNum 404)
           "message" (JStr ("No handler registered for endpoint: " +:+ toString endpoint))) c
  | Some handler =>
      let run := handler data in
      let caught (error : jsval) (c' : client) : outcome :=
        match error with
        | JUndefined | JNull =>
            Throw c' (js_error "TypeError" "Cannot read properties of undefined")
        | _ =>
            sendResponse id JNull
              (obj2 "code" (JNum 500)
                 "message" (js_or (getField error "message") (JStr "Unknown error"))) c'
        end in
      match respond_each id (responds run) c with
      | Ok c' =>
          match throws run with
          | None => Ok c'
          | Some error => caught error c'
          end
      | Throw c' error => caught error c'
      end
  end.

Definition handleIncomingResponse (id data error : jsval) (c : client) : client :=
  match id with
  | JStr s =>
      match pendingRequests c !! s with
      | Some entry =>
          let c1 := clearTimeout (timeout entry) c in
          let c2 := set_pendingRequests (delete s (pendingRequests c1)) c1 in
          if truthy error then
            log (Reject (promise entry)
                   (js_or (getField error "code") (JNum 500))
                   (js_or (getField error "message") (JStr "Unknown Error"))) c2
          else resolve (promise entry) data c2
      | None => c
      end
  | _ => c
  end.

Definition reconnectResume (c : client) : client :=
  match readyState c with
  | OPEN | CONNECTING => c
  | CLOSING | CLOSED => initializeSocket c
  end.

Definition tryReconnect (c : client) : client :=
  if (reconnectionAttempts c <=? currentAttempt c)%Z then
    fire (JStr "reconnect_failed") [] c
  else setTimeout Reconnect (reconnectionDelay c) c.

(** The function handed to [setTimeout] by [tryReconnect]. *)
Definition reconnect_timer (c : client) : client :=
  let c1 := set_currentAttempt (currentAttempt c + 1) c in
  let c2 := reconnectResume c1 in
  set_reconnectionDelay (Z.min 30000 (reconnectionDelay c2 * 2)) c2.

(** [this.eventQueue.forEach(({event, data}) => this.emit(event, data))] *)
Fixpoint emit_each (q : list (string * jsval)) (c : client) : outcome :=
  match q with
  | [] => Ok c
  | (event, data) :: q' =>
      match emit event data c with
      | Ok c' => emit_each q' c'
      | Throw c' e => Throw c' e
      end
  end.

Definition flushEventQueue (c : client) : outcome :=
  match emit_each (eventQueue c) c with
  | Ok c' => Ok (set_eventQueue [] c')
  | Throw c' e => Throw c' e
  end.

Definition reject_closed (c : client) (kv : string * pending) : client :=
  reject (promise kv.2) 503 "WebSocket connection closed"
    (clearTimeout (timeout kv.2) c).

Definition clearPendingRequests (c : client) : client :=
  set_pendingRequests ∅ (foldl reject_closed c (map_to_list (pendingRequests c))).

(** [v === s] for a string literal [s]. *)
Definition strict_eq_str (v : jsval) (s : string) : bool :=
  match v with
  | JStr s' => String.eqb s' s
  | _ => false
  end.

(** [socket.onmessage]; [None] is a text that [JSON.parse] rejects.  All
    exceptions are caught and logged to the console. *)
Definition onmessage (message : option jsval) (c : client) : client :=
  match message with
  | None | Some JUndefined | Some JNull => c
  | Some parsed =>
      let event := getField parsed "event" in
      let data := getField parsed "data" in
      let request := getField parsed "request" in
      let response := getField parsed "response" in
      if truthy (getField request "id") && truthy (getField request "endpoint") then
        if allowServerRequests c then
          state_of (handleIncomingRequest (getField request "id")
                      (getField request "endpoint") (getField request "data") c)
        else c
      else if truthy (getField response "id")
              && (truthy (getField response "data")
                  || truthy (getField response "error")) then
        handleIncomingResponse (getField response "id") (getField response "data")
          (getField response "error") c
      else if strict_eq_str event "__system_handshake_ack" then
        fire (JStr "connect") [] c
      else fire event [data] c
  end.

Definition onclose (c : client) : client :=
  let c1 := clearPendingRequests (fire (JStr "disconnect") [] c) in
  if negb (isManuallyDisconnected c1) && shouldReconnect c1 then tryReconnect c1
  else c1.

Definition onopen (c : client) : outcome :=
  let c1 := if (0 <? currentAttempt c)%Z then fire (JStr "reconnect") [] c else c in
  flushEventQueue
    (set_reconnectionDelay 1000
       (set_isManuallyDisconnected false
          (set_shouldReconnect true (set_currentAttempt 0 c1)))).

Definition disconnect (c : client) : client :=
  match readyState c with
  | OPEN | CONNECTING =>
      socket_close
        (set_eventQueue []
           (set_shouldReconnect false (set_isManuallyDisconnected true c)))
  | CLOSING | CLOSED => c
  end.

(** [request]; [requestId] stands for the value of
    [Date.now() + Math.random().toString(36).substring(2, 10)], and the
    promise the call returns is the one numbered [nextPromise]. *)
Definition request (endpoint : string) (data : jsval) (timeoutDuration : Z)
    (requestId : string) (c : client) : client :=
  let p := nextPromise c in
  let c0 := set_nextPromise (S p) c in
  if isManuallyDisconnected c0 then
    reject p 400 "Connection manually disconnected" c0
  else if decide (readyState c0 ≠ OPEN) then
    reject p 503 "WebSocket is not connected" c0
  else
    let t := nextTimer c0 in
    let c1 := setTimeout (RequestTimeout requestId p) timeoutDuration c0 in
    let c2 := set_pendingRequests
                (<[requestId := {| promise := p; timeout := t |}]> (pendingRequests c1)) c1 in
    match socket_send (request_frame requestId endpoint data) c2 with
    | Ok c3 => c3
    | Throw c3 _ => reject p 500 "Failed to send request" c3
    end.

(** The function handed to [setTimeout] by [request]; [t] is its own handle. *)
Definition request_timeout (requestId : string) (p t : nat) (c : client) : client :=
  reject p 408 "Request timed out"
    (clearTimeout t (set_pendingRequests (delete requestId (pendingRequests c)) c)).

Definition isConnected (c : client) : bool := bool_decide (readyState c = OPEN).

(** ** One turn of the event loop *)

Inductive action :=
| CallOn (event : string) (handler : nat)
| CallOnRequest (endpoint : string) (handler : request_handler)
| CallEnableServerRequests
| CallDisableServerRequests
| CallEmit (event : string) (data : jsval)
| CallRequest (endpoint : string) (data : jsval) (timeoutDuration : Z) (requestId : string)
| CallClose
| CallDisconnect
| CallReconnectResume
| SocketOpen
| SocketMessage (message : option jsval)
| SocketClose
| OldSocketClose
| TimerFire (t : nat).

(** A call of the application runs the method; an exception goes back to
    the caller.  A socket event runs the callback when the socket can
    produce it; a timer fires when it is armed, and is then gone. *)
Definition step (a : action) (c : client) : client :=
  match a with
  | CallOn event handler => on event handler c
  | CallOnRequest endpoint handler => state_of (onRequest endpoint handler c)
  | CallEnableServerRequests => enableServerRequests c
  | CallDisableServerRequests => disableServerRequests c
  | CallEmit event data => state_of (emit event data c)
  | CallRequest endpoint data timeoutDuration requestId =>
      request endpoint data timeoutDuration requestId c
  | CallClose => close c
  | CallDisconnect => disconnect c
  | CallReconnectResume => reconnectResume c
  | SocketOpen =>
      match readyState c with
      | CONNECTING => state_of (onopen (set_readyState OPEN c))
      | _ => c
      end
  | SocketMessage message =>
      match readyState c with
      | OPEN => onmessage message c
      | _ => c
      end
  | SocketClose =>
      match readyState c with
      | CLOSED => c
      | _ => onclose (set_readyState CLOSED c)
      end
  | OldSocketClose =>
      match closingSockets c with
      | O => c
      | S n => onclose (set_closingSockets n c)
      end
  | TimerFire t =>
      match timers c !! t with
      | None => c
      | Some tm =>
          let c' := clearTimeout t c in
          match callback tm with
          | RequestTimeout requestId p => request_timeout requestId p t c'
          | Reconnect => reconnect_timer c'
          end
      end
  end.

Definition run (tr : list action) (c : client) : client := foldl (fun s a => step a s) c tr.


(** ** Reading the trace *)

Definition is_settlement (e : effect) : bool :=
  match e with
  | Resolve _ _ | Reject _ _ _ => true
  | _ => false
  end.

(** The settled promises, in order. *)
Definition settlements (fx : list effect) : list effect :=
  List.filter is_settlement fx.

(** The frames handed to the socket, in order. *)
Fixpoint sent_frames (fx : list effect) : list jsval :=
  match fx with
  | [] => []
  | Send frame :: fx' => frame :: sent_frames fx'
  | _ :: fx' => sent_frames fx'
  end.

(** The delays of the reconnection timers set, in order. *)
Fixpoint reconnect_waits (fx : list effect) : list Z :=
  match fx with
  | [] => []
  | SetTimeout _ ms Reconnect :: fx' => ms :: reconnect_waits fx'
  | _ :: fx' => reconnect_waits fx'
  end.

(** The settlement calls made on promise [p]. *)
Definition settled_by (p : nat) (e : effect) : bool :=
  match e with
  | Resolve q _ | Reject q _ _ => bool_decide (q = p)
  | _ => false
  end.

Definition settle_count (p : nat) (fx : list effect) : nat :=
  length (List.filter (settled_by p) fx).

(** * Properties *)

Lemma settlements_app fx1 fx2 :
  settlements (fx1 ++ fx2) = settlements fx1 ++ settlements fx2.
Proof. apply List.filter_app. Qed.


Lemma reconnect_waits_app fx1 fx2 :
  reconnect_waits (fx1 ++ fx2) = reconnect_waits fx1 ++ reconnect_waits fx2.
Proof.
  induction fx1 as [|e fx1 IH]; [done|].
  destruct e as [| | | |t ms []]; simpl; by rewrite ?IH.
Qed.

Lemma settle_count_app p fx1 fx2 :
  settle_count p (fx1 ++ fx2) = settle_count p fx1 + settle_count p fx2.
Proof. unfold settle_count. by rewrite List.filter_app, length_app. Qed.

(** *** Refused requests *)

(** C3.  A [request] made on a manually disconnected client rejects its
    promise at once with code 400; one made on a client that is not
    manually disconnected but whose socket is not open rejects it at once
    with code 503.  In both cases the rejection is the only thing the call
    does: no frame is sent, no timer is set, and the pending table and the
    timer table are left as they were. *)
Theorem request_refused endpoint data ms requestId c :
  isManuallyDisconnected c = true ∨ readyState c ≠ OPEN →
  let c' := request endpoint data ms requestId c in
  effects c' =
    effects c ++
      [if isManuallyDisconnected c
       then Reject (nextPromise c) (JNum 400) (JStr "Connection manually disconnected")
       else Reject (nextPromise c) (JNum 503) (JStr "WebSocket is not connected")]
  ∧ pendingRequests c' = pendingRequests c
  ∧ timers c' = timers c
  ∧ nextTimer c' = nextTimer c.
Proof.
  intros H. unfold request. simpl.
  destruct (isManuallyDisconnected c) eqn:Hm; [done|].
  destruct H as [?|Hr]; [done|].
  by destruct (decide (readyState c ≠ OPEN)).
Qed.

Lemma request_refused_witness :
  let c := disconnect (constructor false no_options) in
  effects (request "ping" JNull 300000 "id1" c) =
    [Reject 0 (JNum 400) (JStr "Connection manually disconnected")]
  ∧ effects (request "ping" JNull 300000 "id1" (constructor false no_options)) =
    [Reject 0 (JNum 503) (JStr "WebSocket is not connected")].
Proof.
  split.
  - apply (request_refused "ping" JNull 300000 "id1"
             (disconnect (constructor false no_options))).
    left. reflexivity.
  - apply (request_refused "ping" JNull 300000 "id1" (constructor false no_options)).
    right. discriminate.
Defined.

(** *** Closing the transport *)

Definition closed_rejection (kv : string * pending) : effect :=
  Reject (promise kv.2) (JNum 503) (JStr "WebSocket connection closed").

Lemma fire_settlements event args c :
  settlements (effects (fire event args c)) = settlements (effects c).
Proof.
  unfold fire. destruct (lookup_key _ _); [|done].
  simpl. rewrite settlements_app. simpl. by rewrite app_nil_r.
Qed.

Lemma fire_pendingRequests event args c :
  pendingRequests (fire event args c) = pendingRequests c.
Proof. unfold fire. by destruct (lookup_key _ _). Qed.

Lemma fire_timers event args c : timers (fire event args c) = timers c.
Proof. unfold fire. by destruct (lookup_key _ _). Qed.














(** *** Responses the demultiplexer does not deliver *)

(** The state of the correlator: table, timers and settlements made. *)
Definition same_requests (c c' : client) : Prop :=
  pendingRequests c' = pendingRequests c
  ∧ timers c' = timers c
  ∧ settlements (effects c') = settlements (effects c).

Lemma same_requests_refl c : same_requests c c.
Proof. done. Qed.

Lemma same_requests_trans c1 c2 c3 :
  same_requests c1 c2 → same_requests c2 c3 → same_requests c1 c3.
Proof. unfold same_requests. intros (-> & -> & ->) (-> & -> & ->). done. Qed.

Lemma same_requests_fire event args c : same_requests c (fire event args c).
Proof.
  split_and!; [apply fire_pendingRequests|apply fire_timers|apply fire_settlements].
Qed.

Lemma same_requests_socket_send frame c :
  same_requests c (state_of (socket_send frame c)).
Proof.
  unfold socket_send. destruct (serializable frame); [|done].
  destruct (readyState c); try done.
  split_and!; [done..|]. simpl. rewrite settlements_app. simpl. by rewrite app_nil_r.
Qed.

Lemma same_requests_respond_each id rs c :
  same_requests c (state_of (respond_each id rs c)).
Proof.
  revert c. induction rs as [|[data error] rs IH]; intros c; simpl; [done|].
  pose proof (same_requests_socket_send (response_frame id data error) c) as H.
  unfold sendResponse. destruct (socket_send _ c) as [c'|c' e]; simpl in *; [|done].
  eapply same_requests_trans; [exact H|apply IH].
Qed.

Lemma same_requests_handleIncomingRequest id endpoint data c :
  same_requests c (state_of (handleIncomingRequest id endpoint data c)).
Proof.
  unfold handleIncomingRequest. destruct (lookup_key _ _) as [handler|].
  2: { apply same_requests_socket_send. }
  pose proof (same_requests_respond_each id (responds (handler data)) c) as H.
  assert (Hcaught : ∀ error c',
    same_requests c c' →
    same_requests c (state_of
      match error with
      | JUndefined | JNull =>
          Throw c' (js_error "TypeError" "Cannot read properties of undefined")
      | _ =>
          sendResponse id JNull
            (obj2 "code" (JNum 500)
               "message" (js_or (getField error "message") (JStr "Unknown error"))) c'
      end)).
  { intros error c' Hc'.
    destruct error; simpl; try done;
      (eapply same_requests_trans; [exact Hc'|apply same_requests_socket_send]). }
  destruct (respond_each _ _ c) as [c'|c' e]; simpl in H.
  - destruct (throws _); [by apply Hcaught|done].
  - by apply Hcaught.
Qed.

(** C9.  An inbound frame whose [response] has no [error] and a falsy
    [data] is not handed to [handleIncomingResponse]: whatever else the
    frame carries, the pending table and the timers are left as they were
    and no promise is settled, so a request pending under that identifier
    stays pending with its deadline timer armed. *)
Theorem falsy_response_not_delivered parsed c :
  let response := getField parsed "response" in
  getField response "error" = JUndefined →
  truthy (getField response "data") = false →
  let c' := onmessage (Some parsed) c in
  pendingRequests c' = pendingRequests c
  ∧ timers c' = timers c
  ∧ settlements (effects c') = settlements (effects c).
Proof.
  intros response Herr Hdata c'. change (same_requests c c').
  unfold c', onmessage. fold response. rewrite Herr, Hdata. simpl.
  rewrite andb_false_r.
  assert (Hrest : same_requests c
    (if truthy (getField (getField parsed "request") "id")
        && truthy (getField (getField parsed "request") "endpoint")
     then if allowServerRequests c
          then state_of (handleIncomingRequest
                 (getField (getField parsed "request") "id")
                 (getField (getField parsed "request") "endpoint")
                 (getField (getField parsed "request") "data") c)
          else c
     else if strict_eq_str (getField parsed "event") "__system_handshake_ack"
          then fire (JStr "connect") [] c
          else fire (getField parsed "event") [getField parsed "data"] c)).
  { destruct (_ && _).
    - destruct (allowServerRequests c); [|done].
      apply same_requests_handleIncomingRequest.
    - destruct (strict_eq_str _ _); apply same_requests_fire. }
  destruct parsed; try exact Hrest; done.
Qed.

Lemma falsy_response_not_delivered_witness :
  let c := run [SocketOpen; CallRequest "count" JNull 300000 "r1"]
             (constructor false no_options) in
  let frame := JObj [("response", JObj [("id", JStr "r1"); ("data", JNum 0)])] in
  pendingRequests (onmessage (Some frame) c) = pendingRequests c.
Proof.
  intros c frame. apply (falsy_response_not_delivered frame c); reflexivity.
Defined.

(** *** Reconnection *)

Lemma emit_each_effects q c :
  ∃ frames, effects (state_of (emit_each q c)) = effects c ++ (Send <$> frames).
Proof.
  revert c. induction q as [|[event data] q IH]; intros c; simpl.
  - exists []. by rewrite app_nil_r.
  - unfold emit. destruct (decide (readyState c ≠ OPEN)) as [Hr|Hr].
    + destruct (negb _); [|apply IH].
      destruct (IH (set_eventQueue (eventQueue c ++ [(event, data)]) c)) as [frames Hf].
      by exists frames.
    + unfold socket_send. destruct (serializable _); simpl.
      2: { exists []. by rewrite app_nil_r. }
      apply dec_stable in Hr. rewrite Hr.
      destruct (IH (log (Send (event_frame event data)) c)) as [frames Hf].
      exists (event_frame event data :: frames). rewrite Hf. simpl.
      by rewrite <- app_assoc.
Qed.

Lemma flushEventQueue_effects c :
  ∃ frames, effects (state_of (flushEventQueue c)) = effects c ++ (Send <$> frames).
Proof.
  unfold flushEventQueue.
  destruct (emit_each_effects (eventQueue c) c) as [frames Hf].
  exists frames. by destruct (emit_each _ c).
Qed.

(** C8.  On an open that follows at least one reconnection attempt, the
    handler registered for ["reconnect"] is invoked with no argument at
    all: the attempt count is not handed to it.  The rest of the open
    transition only sends frames. *)
Theorem reconnect_invoked_without_count c h :
  events c !! "reconnect" = Some h →
  (0 < currentAttempt c)%Z →
  ∃ frames,
    effects (state_of (onopen c)) = effects c ++ Invoke h [] :: (Send <$> frames).
Proof.
  intros Hh Hn. unfold onopen.
  apply Z.ltb_lt in Hn. rewrite Hn. unfold fire. simpl. rewrite Hh.
  match goal with |- context [flushEventQueue ?s] =>
    destruct (flushEventQueue_effects s) as [frames Hf] end.
  exists frames. rewrite Hf. simpl. by rewrite <- app_assoc.
Qed.

Lemma reconnect_invoked_without_count_witness :
  let c := run [CallOn "reconnect" 8; SocketClose; TimerFire 0]
             (constructor false no_options) in
  currentAttempt c = 1%Z
  ∧ ∃ frames,
      effects (state_of (onopen c)) = effects c ++ Invoke 8 [] :: (Send <$> frames).
Proof.
  intros c. split; [reflexivity|].
  apply (reconnect_invoked_without_count c 8); [reflexivity | vm_compute; reflexivity].
Defined.

Lemma foldl_reject_closed_eq l c :
  foldl reject_closed c l =
    set_effects (effects c ++ (closed_rejection <$> l))
      (set_timers (foldl (λ m (kv : string * pending), delete (timeout kv.2) m)
                     (timers c) l) c).
Proof.
  revert c. induction l as [|kv l IH]; intros c; simpl.
  - rewrite app_nil_r. by destruct c.
  - rewrite IH. unfold set_effects, set_timers. simpl. by rewrite <- app_assoc.
Qed.

Lemma reconnect_waits_closed_rejection (l : list (string * pending)) :
  reconnect_waits (closed_rejection <$> l) = [].
Proof. induction l as [|kv l IH]; simpl; [done|exact IH]. Qed.

(** The delay after a reconnection attempt, as [reconnect_timer] sets it. *)
Definition next_delay (d : Z) : Z := Z.min 30000 (d * 2).

(** One failed attempt: the socket closes, and the timer set by the close
    handler fires. *)
Definition failed_attempt (t : nat) : list action := [SocketClose; TimerFire t].

Fixpoint failed_attempts (t n : nat) : list action :=
  match n with
  | O => []
  | S n' => failed_attempt t ++ failed_attempts (S t) n'
  end.

(** The client is retrying on its own: its socket is not yet closed,
    reconnection is enabled and it was not disconnected by hand. *)
Definition retrying (c : client) : Prop :=
  readyState c ≠ CLOSED ∧ isManuallyDisconnected c = false ∧ shouldReconnect c = true.

Lemma failed_attempt_step c :
  retrying c →
  (currentAttempt c < reconnectionAttempts c)%Z →
  let c' := run (failed_attempt (nextTimer c)) c in
  retrying c'
  ∧ readyState c' = CONNECTING
  ∧ reconnect_waits (effects c') = reconnect_waits (effects c) ++ [reconnectionDelay c]
  ∧ currentAttempt c' = (currentAttempt c + 1)%Z
  ∧ reconnectionDelay c' = next_delay (reconnectionDelay c)
  ∧ reconnectionAttempts c' = reconnectionAttempts c
  ∧ nextTimer c' = S (nextTimer c)
  ∧ eventQueue c' = eventQueue c.
Proof.
  intros (Hr & Hm & Hs) Hlt. cbv zeta.
  change (run (failed_attempt (nextTimer c)) c)
    with (step (TimerFire (nextTimer c)) (step SocketClose c)).
  assert (Hclose : step SocketClose c =
    setTimeout Reconnect (reconnectionDelay c)
      (clearPendingRequests (fire (JStr "disconnect") [] (set_readyState CLOSED c)))).
  { simpl. destruct (readyState c); try done;
      unfold onclose, clearPendingRequests, tryReconnect;
      rewrite foldl_reject_closed_eq; unfold fire; simpl;
      destruct (events c !! "disconnect"); simpl; rewrite Hm, Hs; simpl;
      by rewrite (proj2 (Z.leb_gt _ _) Hlt). }
  rewrite Hclose. clear Hclose.
  unfold clearPendingRequests. rewrite foldl_reject_closed_eq.
  unfold fire. simpl lookup_key.
  destruct (events c !! "disconnect"); simpl; rewrite lookup_insert_eq; simpl;
    unfold retrying, reconnect_timer, reconnectResume, next_delay; simpl;
    rewrite !reconnect_waits_app, ?reconnect_waits_closed_rejection; simpl;
    rewrite ?app_nil_r; split_and!; done.
Qed.

Lemma run_app tr1 tr2 c : run (tr1 ++ tr2) c = run tr2 (run tr1 c).
Proof. apply foldl_app. Qed.

(** The delay in force after [k] failed attempts, starting from [d]. *)
Fixpoint wait_at (d : Z) (k : nat) : Z :=
  match k with
  | O => d
  | S k' => wait_at (next_delay d) k'
  end.

(** A run of [n] failed attempts, while attempts remain: the waits are
    [d], [next_delay d], [next_delay (next_delay d)], ... from the delay
    [d] in force at the first close, and the attempt count goes up by one
    at each. *)
Lemma failed_attempts_run n c :
  retrying c →
  (currentAttempt c + Z.of_nat n ≤ reconnectionAttempts c)%Z →
  let c' := run (failed_attempts (nextTimer c) n) c in
  retrying c'
  ∧ reconnect_waits (effects c') =
      reconnect_waits (effects c) ++ (wait_at (reconnectionDelay c) <$> seq 0 n)
  ∧ currentAttempt c' = (currentAttempt c + Z.of_nat n)%Z
  ∧ reconnectionDelay c' = wait_at (reconnectionDelay c) n
  ∧ reconnectionAttempts c' = reconnectionAttempts c
  ∧ nextTimer c' = nextTimer c + n.
Proof.
  revert c. induction n as [|n IH]; intros c Hc Hle; cbv zeta.
  - simpl. rewrite app_nil_r. split_and!; try done; lia.
  - change (failed_attempts (nextTimer c) (S n))
      with (failed_attempt (nextTimer c) ++ failed_attempts (S (nextTimer c)) n).
    rewrite run_app.
    destruct (failed_attempt_step c Hc) as (Hc1 & _ & Hw & Ha & Hd & Hmax & Hn & _);
      [lia|].
    set (c1 := run (failed_attempt (nextTimer c)) c) in *.
    rewrite <- Hn.
    destruct (IH c1 Hc1) as (Hc2 & Hw2 & Ha2 & Hd2 & Hmax2 & Hn2); [lia|].
    split_and!; [done| |lia| |congruence|lia].
    + rewrite Hw2, Hw, Hd, <- app_assoc. f_equal.
      change (seq 0 (S n)) with (0 :: seq 1 n). rewrite fmap_cons. simpl app.
      f_equal. by rewrite <- (fmap_S_seq 0 n), <- list_fmap_compose.
    + by rewrite Hd2, Hd.
Qed.

(** The sequence the documentation gives for a base [B] and a ceiling [M]:
    [B], [min (2B) M], [min (4B) M], ... *)
Definition documented_wait (B M : Z) (k : nat) : Z :=
  match k with
  | O => B
  | S _ => Z.min (2 ^ Z.of_nat k * B) M
  end.

(** The waits of the code are those of the documentation for the fixed
    ceiling 30000. *)
Lemma wait_at_fixed_ceiling d k : wait_at d k = documented_wait d 30000 k.
Proof.
  destruct k as [|k]; [done|]. revert d.
  induction k as [|k IH]; intros d.
  - unfold documented_wait, wait_at, next_delay.
    change (2 ^ Z.of_nat 1)%Z with 2%Z. lia.
  - change (wait_at d (S (S k))) with (wait_at (next_delay d) (S k)).
    rewrite IH. unfold documented_wait, next_delay.
    replace (2 ^ Z.of_nat (S (S k)))%Z with (2 * 2 ^ Z.of_nat (S k))%Z
      by (rewrite (Nat2Z.inj_succ (S k)), Z.pow_succ_r; lia).
    assert (1 ≤ 2 ^ Z.of_nat (S k))%Z
      by (pose proof (Z.pow_pos_nonneg 2 (Z.of_nat (S k))); lia).
    set (P := (2 ^ Z.of_nat (S k))%Z) in *.
    destruct (Z_le_gt_dec (d * 2) 30000).
    + rewrite (Z.min_r 30000 (d * 2)) by done. f_equal. lia.
    + rewrite (Z.min_l 30000 (d * 2)) by lia.
      rewrite Z.min_r by nia. rewrite Z.min_r by nia. done.
Qed.

(** C4.  With the default options and a connection that never opens, the
    five waits are 1000, 2000, 4000, 8000 and 16000 ms: the fifth exceeds
    the documented ceiling of 10000 ms, for which the sequence ends in
    10000.  And a client built with a base delay of 100 ms that opens and
    then loses its connection waits 1000 ms, not 100 ms, before its first
    attempt: the open handler puts the delay back to 1000, whatever the
    base was. *)
Theorem backoff_ignores_documented_bounds secure :
  reconnect_waits (effects (run (failed_attempts 0 5) (constructor secure no_options)))
    = [1000; 2000; 4000; 8000; 16000]%Z
  ∧ documented_wait 1000 10000 <$> seq 0 5 = [1000; 2000; 4000; 8000; 10000]%Z
  ∧ reconnect_waits
      (effects (run [SocketOpen; SocketClose]
                  (constructor secure
                     {| opt_reconnectionAttempts := None;
                        opt_reconnectionDelay := Some 100%Z;
                        opt_shouldReconnect := None |})))
    = [1000%Z].
Proof. destruct secure; split_and!; reflexivity. Qed.

(** When the attempts are used up, [tryReconnect] tells the
    ["reconnect_failed"] handler and sets no timer. *)
Lemma tryReconnect_exhausted c :
  (reconnectionAttempts c ≤ currentAttempt c)%Z →
  tryReconnect c = fire (JStr "reconnect_failed") [] c.
Proof. intros H. unfold tryReconnect. by rewrite (proj2 (Z.leb_le _ _) H). Qed.

(** [reconnectResume] on a closed or closing socket connects again,
    whatever the attempt count. *)
Lemma reconnectResume_connects c :
  readyState c = CLOSED ∨ readyState c = CLOSING →
  readyState (reconnectResume c) = CONNECTING.
Proof. unfold reconnectResume. by intros [-> | ->]. Qed.

(** C5.  A client built without options allows five attempts, not an
    unbounded number: after five failed attempts the sixth close invokes
    the ["reconnect_failed"] handler and arms no timer, so the trace shows
    five reconnection timers and the table of timers is empty.  A call of
    [reconnectResume] then connects again. *)
Theorem default_attempts_are_five secure :
  let c0 := on "reconnect_failed" 7 (constructor secure no_options) in
  let c := run (failed_attempts 0 5 ++ [SocketClose]) c0 in
  reconnectionAttempts c0 = 5%Z
  ∧ effects c =
      [SetTimeout 0 1000 Reconnect; SetTimeout 1 2000 Reconnect;
       SetTimeout 2 4000 Reconnect; SetTimeout 3 8000 Reconnect;
       SetTimeout 4 16000 Reconnect; Invoke 7 []]
  ∧ timers c = ∅
  ∧ readyState (step CallReconnectResume c) = CONNECTING.
Proof. destruct secure; split_and!; reflexivity. Qed.

(** *** The event queue *)





(** [emit] on a manually disconnected client whose socket is not open does
    nothing at all. *)
Lemma emit_dropped event data c :
  readyState c ≠ OPEN → isManuallyDisconnected c = true →
  emit event data c = Ok c.
Proof.
  intros Hr Hm. unfold emit. rewrite Hm. by destruct (decide (readyState c ≠ OPEN)).
Qed.






















(** A payload that cannot be serialised stops the flush where it stands:
    the events behind it are not sent and the queue is not emptied. *)
Lemma flush_stops_at_unserializable :
  let c := run [CallEmit "a" (JNum 1); CallEmit "b" (JBigInt 1); CallEmit "c" (JNum 3);
                SocketOpen] (constructor false no_options) in
  sent_frames (effects c) = [event_frame "a" (JNum 1)]
  ∧ eventQueue c = [("a", JNum 1); ("b", JBigInt 1); ("c", JNum 3)].
Proof. split; reflexivity. Qed.

(** *** [close] *)

Lemma run_cons a tr c : run (a :: tr) c = run tr (step a c).
Proof. done. Qed.






(** *** Manual disconnect *)

Lemma disconnect_noop c :
  readyState c = CLOSING ∨ readyState c = CLOSED → disconnect c = c.
Proof. unfold disconnect. by intros [-> | ->]. Qed.

Lemma disconnect_effective c :
  readyState c = OPEN ∨ readyState c = CONNECTING →
  disconnect c =
    set_readyState CLOSING
      (set_eventQueue []
         (set_shouldReconnect false (set_isManuallyDisconnected true c))).
Proof. intros H. unfold disconnect, socket_close. simpl. by destruct H as [-> | ->]. Qed.

(** No reconnection timer is armed. *)
Definition no_reconnect_timer (c : client) : bool :=
  forallb (λ kv : nat * timer,
             match callback kv.2 with Reconnect => false | _ => true end)
    (map_to_list (timers c)).

Lemma no_reconnect_timer_lookup c t tm :
  no_reconnect_timer c = true → timers c !! t = Some tm → callback tm ≠ Reconnect.
Proof.
  intros H Ht. unfold no_reconnect_timer in H. rewrite forallb_forall in H.
  specialize (H (t, tm)). simpl in H. intros Hcb. rewrite Hcb in H.
  discriminate H. apply list_elem_of_In. by apply elem_of_map_to_list.
Qed.

Lemma no_reconnect_timer_intro c :
  (∀ t tm, timers c !! t = Some tm → callback tm ≠ Reconnect) →
  no_reconnect_timer c = true.
Proof.
  intros H. unfold no_reconnect_timer. apply forallb_forall. intros [t tm] Hin.
  apply list_elem_of_In, elem_of_map_to_list in Hin. specialize (H t tm Hin).
  simpl. by destruct (callback tm).
Qed.

Lemma foldl_delete_lookup_Some {A B} (f : A → nat) (l : list A) (m : gmap nat B) t x :
  foldl (λ m a, delete (f a) m) m l !! t = Some x → m !! t = Some x.
Proof.
  revert m. induction l as [|a l IH]; intros m; simpl; [done|].
  intros H. apply IH in H. by apply lookup_delete_Some in H as [_ H].
Qed.

(** The client was disconnected by hand and nothing is set to reconnect
    it: the flag is up, the socket is closing or closed, and no
    reconnection timer is armed. *)
Definition manually_down (c : client) : Prop :=
  isManuallyDisconnected c = true
  ∧ (readyState c = CLOSING ∨ readyState c = CLOSED)
  ∧ no_reconnect_timer c = true.

Lemma onclose_manually_down c :
  manually_down c → manually_down (onclose c).
Proof.
  intros (Hm & Hr & Ht). unfold onclose, clearPendingRequests.
  rewrite foldl_reject_closed_eq. unfold fire. simpl lookup_key.
  assert (Hsub : ∀ l,
    no_reconnect_timer (set_timers
      (foldl (λ m (kv : string * pending), delete (timeout kv.2) m) (timers c) l) c)
    = true).
  { intros l. apply no_reconnect_timer_intro. simpl. intros t tm H.
    apply foldl_delete_lookup_Some in H. by eapply no_reconnect_timer_lookup. }
  destruct (events c !! "disconnect"); simpl; rewrite Hm; simpl;
    (split_and!; [done|done|]); apply no_reconnect_timer_intro; simpl;
    intros t tm H; apply foldl_delete_lookup_Some in H;
    by eapply no_reconnect_timer_lookup.
Qed.

(** While the client is manually down it stays so under every action but
    a call of [reconnectResume]. *)
Lemma step_manually_down a c :
  a ≠ CallReconnectResume → manually_down c → manually_down (step a c).
Proof.
  intros Ha Hd. pose proof Hd as (Hm & Hr & Ht).
  destruct a; simpl; try done.
  - unfold onRequest. by destruct (_ !! _).
  - unfold enableServerRequests. by destruct (secureUrl c).
  - rewrite emit_dropped; [done| |done]. by destruct Hr as [-> | ->].
  - unfold request. simpl. rewrite Hm. done.
  - unfold close, socket_close. by destruct Hr as [-> | ->].
  - by rewrite disconnect_noop.
  - by destruct Hr as [-> | ->].
  - by destruct Hr as [-> | ->].
  - destruct Hr as [Hr | Hr]; rewrite Hr; [|done].
    apply onclose_manually_down. split_and!; [done|by right|done].
  - destruct (closingSockets c); [done|]. by apply onclose_manually_down.
  - destruct (timers c !! t) as [tm|] eqn:Htm; [|done].
    pose proof (no_reconnect_timer_lookup c t tm Ht Htm) as Hcb.
    destruct (callback tm); [|done]. split_and!; [done|done|].
    apply no_reconnect_timer_intro. simpl. intros t' tm' H.
    apply lookup_delete_Some in H as [_ H]. apply lookup_delete_Some in H as [_ H].
    by eapply no_reconnect_timer_lookup.
Qed.

Definition is_emit (a : action) : bool :=
  match a with CallEmit _ _ => true | _ => false end.

Definition is_resume (a : action) : bool :=
  match a with CallReconnectResume => true | _ => false end.

(** While the client is manually down and [reconnectResume] is not called,
    the calls of [emit] have no effect whatever: the run reaches the state
    it reaches with those calls left out. *)
Lemma emits_dropped_while_down tr c :
  manually_down c →
  forallb (λ a, negb (is_resume a)) tr = true →
  run tr c = run (List.filter (λ a, negb (is_emit a)) tr) c.
Proof.
  revert c. induction tr as [|a tr IH]; intros c Hd Htr; [done|].
  simpl in Htr. apply andb_true_iff in Htr as [Ha Htr].
  assert (Hne : a ≠ CallReconnectResume) by (by intros ->).
  rewrite run_cons. simpl List.filter. destruct (is_emit a) eqn:He; simpl negb; cbv iota.
  - destruct a; try discriminate He. simpl step.
    rewrite emit_dropped; [by apply IH| |apply Hd].
    destruct Hd as (_ & [-> | ->] & _); done.
  - rewrite run_cons. apply IH; [|done]. by apply step_manually_down.
Qed.

(** A manual disconnect of a live socket, with no reconnection timer
    armed, puts the client manually down. *)
Lemma disconnect_manually_down c :
  readyState c = OPEN ∨ readyState c = CONNECTING →
  no_reconnect_timer c = true →
  manually_down (disconnect c).
Proof.
  intros Hr Ht. rewrite disconnect_effective by done.
  split_and!; [done|by left|done].
Qed.

(** C7.  A reconnection timer that is armed when [disconnect] is called
    is not cancelled.  Here the connection is lost and a timer is set;
    the application reconnects by hand, the socket opens, and the
    application disconnects: the flag is up, reconnection is off, the
    queue is empty and the socket is closing.  [reconnectResume] is not
    called again.  The old timer then fires and reconnects, the socket
    opens, the flag is cleared, and an event emitted afterwards is sent. *)
Theorem stale_timer_undoes_disconnect :
  let c0 := constructor false no_options in
  let c1 := run [SocketClose; CallReconnectResume; SocketOpen; CallDisconnect] c0 in
  let c2 := run [SocketClose; TimerFire 0; SocketOpen; CallEmit "x" JNull] c1 in
  isManuallyDisconnected c1 = true
  ∧ shouldReconnect c1 = false
  ∧ eventQueue c1 = []
  ∧ readyState c1 = CLOSING
  ∧ no_reconnect_timer c1 = false
  ∧ isManuallyDisconnected c2 = false
  ∧ sent_frames (effects c2) = [event_frame "x" JNull].
Proof. split_and!; vm_compute; reflexivity. Qed.

(** *** Requests whose frame cannot be sent *)

(** C1.  A request whose payload cannot be serialised is rejected with
    code 500 by the [catch] branch of [request], which leaves its entry
    in the pending table and its deadline timer armed.  When the timer
    fires, or when a response with the identifier arrives, the same
    promise is settled a second time. *)
Theorem failed_send_settles_twice :
  let c := run [SocketOpen; CallRequest "sum" (JBigInt 1) 300000 "r1"]
             (constructor false no_options) in
  let frame := JObj [("response", JObj [("id", JStr "r1"); ("data", JStr "ok")])] in
  settlements (effects c) = [Reject 0 (JNum 500) (JStr "Failed to send request")]
  ∧ pendingRequests c !! "r1" = Some {| promise := 0; timeout := 0 |}
  ∧ timers c !! 0 =
      Some {| delay := 300000; callback := RequestTimeout "r1" 0 |}
  ∧ settlements (effects (step (TimerFire 0) c)) =
      [Reject 0 (JNum 500) (JStr "Failed to send request");
       Reject 0 (JNum 408) (JStr "Request timed out")]
  ∧ settlements (effects (step (SocketMessage (Some frame)) c)) =
      [Reject 0 (JNum 500) (JStr "Failed to send request"); Resolve 0 (JStr "ok")].
Proof. split_and!; vm_compute; reflexivity. Qed.
